(** Shallow embedding of the engine core of Acid
    (Sources/Engine/Engine.hpp): the [ChangePerSecond] rate counter, the
    [Engine] object and its public operations.

    Conventions.
    - [float] times handed to [ChangePerSecond::Update] are finite floats,
      i.e. dyadic rationals; they are modelled exactly as [Q], and
      [std::floor] as [Qfloor].
    - [uint32_t] is [Z] with its wrap-around modulo 2^32 written out.
    - [Time] (microseconds, 64-bit) is [Z].
    - A [Game *] or module instance is identified by a [nat] (its address). *)

From stdpp Require Import base gmap strings list.
From Stdlib Require Import ZArith QArith Qround.

Open Scope Z_scope.

(* ------------------------------------------------------------------ *)
(** * Machine integers *)

Definition u32_modulus : Z := 2 ^ 32.

(** [x++] on a [uint32_t]. *)
Definition u32_incr (x : Z) : Z := (x + 1) mod u32_modulus.

(* ------------------------------------------------------------------ *)
(** * ChangePerSecond (Engine.hpp, lines 12-30) *)

Module ChangePerSecond.

Record t := mk {
  m_valueTemp : Z;
  m_value : Z;
  m_valueTime : Q
}.

(** [void Update(const float &time)]:
    [m_valueTemp++; if (floor(time) > floor(m_valueTime))
     { m_value = m_valueTemp; m_valueTemp = 0; } m_valueTime = time;] *)
Definition Update (time : Q) (c : t) : t :=
  let temp := u32_incr (m_valueTemp c) in
  if Z.ltb (Qfloor (m_valueTime c)) (Qfloor time)
  then mk 0 temp time
  else mk temp (m_value c) time.

Definition zero : t := mk 0 0 0%Q.

(** Feeding a sequence of timestamps, one [Update] per timestamp. *)
Definition feed (times : list Q) (c : t) : t :=
  fold_left (fun acc tm => Update tm acc) times c.

End ChangePerSecond.

(* ------------------------------------------------------------------ *)
(** * Collaborators whose headers are not part of the sources *)

(** Modelled from the spec: [Module::Stage] (ModuleHolder.hpp/Module.hpp
    are missing), the enumerated execution buckets of section 3. *)
Inductive Stage := Always | Pre | Normal | Post | Render.

#[global] Instance Stage_eq_dec : EqDecision Stage.
Proof. solve_decision. Defined.

(** Modelled from the spec: [ModuleHolder] (ModuleHolder.hpp is missing).
    The primary map from type identity to (stage, instance), and the
    secondary index: per stage, the type identities in registration order. *)
Record ModuleHolder := mkModuleHolder {
  mh_modules : gmap string (Stage * nat);
  mh_stages : list (Stage * string)
}.

Inductive AddResult := Added | Conflict.

Module ModuleHolderOps.

(** Modelled from the spec: [ModuleHolder::Add]. A type identity already
    present leaves the registry unchanged and reports a conflict;
    otherwise the module is registered and appended to its stage. *)
Definition Add (ty : string) (stage : Stage) (inst : nat) (mh : ModuleHolder)
  : ModuleHolder * AddResult :=
  match mh_modules mh !! ty with
  | Some _ => (mh, Conflict)
  | None =>
      (mkModuleHolder (<[ty := (stage, inst)]> (mh_modules mh))
                      (mh_stages mh ++ [(stage, ty)]), Added)
  end.

(** Modelled from the spec: [ModuleHolder::Remove]; a no-op when absent,
    otherwise removes the entry from both indexes, keeping the order of
    the remaining ones. *)
Definition Remove (ty : string) (mh : ModuleHolder) : ModuleHolder :=
  match mh_modules mh !! ty with
  | Some _ =>
      mkModuleHolder (delete ty (mh_modules mh))
                     (filter (fun p => p.2 <> ty) (mh_stages mh))
  | None => mh
  end.

(** Modelled from the spec: [ModuleHolder::Has]. *)
Definition Has (ty : string) (mh : ModuleHolder) : bool :=
  bool_decide (is_Some (mh_modules mh !! ty)).

End ModuleHolderOps.

(** Modelled from the spec: [Delta] (Maths/Delta.hpp is missing);
    [Update(now)] sets the change to [now - last] and [last] to [now]. *)
Record Delta := mkDelta {
  d_currentFrameTime : Z;
  d_lastFrameTime : Z;
  d_change : Z
}.

Definition Delta_Update (now : Z) (d : Delta) : Delta :=
  mkDelta now now (now - d_lastFrameTime d).

(** Modelled from the spec: [Timer] (Maths/Timer.hpp is missing); its
    state is a reference point and an interval. *)
Record Timer := mkTimer {
  t_startTime : Z;
  t_interval : Z
}.

(* ------------------------------------------------------------------ *)
(** * Engine (Engine.hpp, lines 35-210) *)

(** The data members of [class Engine], in declaration order. *)
Record Engine := mkEngine {
  m_modules : ModuleHolder;
  m_game : option nat;            (* std::unique_ptr<Game> *)
  m_argv0 : string;
  m_timeOffset : Z;
  m_fpsLimit : Q;
  m_running : bool;
  m_deltaUpdate : Delta;
  m_deltaRender : Delta;
  m_timerUpdate : Timer;
  m_timerRender : Timer;
  m_ups : ChangePerSecond.t;
  m_fps : ChangePerSecond.t
}.

Module EngineOps.

(** Const getters. *)
Definition IsRunning (e : Engine) : bool := m_running e.
Definition GetFpsLimit (e : Engine) : Q := m_fpsLimit e.
Definition GetUps (e : Engine) : Z := ChangePerSecond.m_value (m_ups e).
Definition GetFps (e : Engine) : Z := ChangePerSecond.m_value (m_fps e).
Definition GetGame (e : Engine) : option nat := m_game e.
Definition HasModule (ty : string) (e : Engine) : bool :=
  ModuleHolderOps.Has ty (m_modules e).

(** [void RequestClose(const bool &error) { m_running = false; }] *)
Definition RequestClose (error : bool) (e : Engine) : Engine :=
  mkEngine (m_modules e) (m_game e) (m_argv0 e) (m_timeOffset e)
    (m_fpsLimit e) false (m_deltaUpdate e) (m_deltaRender e)
    (m_timerUpdate e) (m_timerRender e) (m_ups e) (m_fps e).

(** [void SetFpsLimit(const float &fpsLimit) { m_fpsLimit = fpsLimit; }] *)
Definition SetFpsLimit (fpsLimit : Q) (e : Engine) : Engine :=
  mkEngine (m_modules e) (m_game e) (m_argv0 e) (m_timeOffset e)
    fpsLimit (m_running e) (m_deltaUpdate e) (m_deltaRender e)
    (m_timerUpdate e) (m_timerRender e) (m_ups e) (m_fps e).

(** [void SetTimeOffset(const Time &timeOffset) { m_timeOffset = timeOffset; }] *)
Definition SetTimeOffset (timeOffset : Z) (e : Engine) : Engine :=
  mkEngine (m_modules e) (m_game e) (m_argv0 e) timeOffset
    (m_fpsLimit e) (m_running e) (m_deltaUpdate e) (m_deltaRender e)
    (m_timerUpdate e) (m_timerRender e) (m_ups e) (m_fps e).

Definition with_modules (mh : ModuleHolder) (e : Engine) : Engine :=
  mkEngine mh (m_game e) (m_argv0 e) (m_timeOffset e)
    (m_fpsLimit e) (m_running e) (m_deltaUpdate e) (m_deltaRender e)
    (m_timerUpdate e) (m_timerRender e) (m_ups e) (m_fps e).

Definition with_game (g : option nat) (e : Engine) : Engine :=
  mkEngine (m_modules e) g (m_argv0 e) (m_timeOffset e)
    (m_fpsLimit e) (m_running e) (m_deltaUpdate e) (m_deltaRender e)
    (m_timerUpdate e) (m_timerRender e) (m_ups e) (m_fps e).

(** [void AddModule(stage, args...)
     { m_modules.Add<T>(stage, std::make_unique<T>(args...)); }]:
    the result of [Add] is dropped ([void]). *)
Definition AddModule (ty : string) (stage : Stage) (inst : nat) (e : Engine)
  : Engine :=
  with_modules (ModuleHolderOps.Add ty stage inst (m_modules e)).1 e.

(** [void RemoveModule() { m_modules.Remove<T>(); }] *)
Definition RemoveModule (ty : string) (e : Engine) : Engine :=
  with_modules (ModuleHolderOps.Remove ty (m_modules e)) e.

End EngineOps.

(* ------------------------------------------------------------------ *)
(** * Game ownership and the main loop *)

Module Loop.

(** Observable events: a [Game] destroyed, or its update hook invoked. *)
Inductive Event :=
| GameDestroyed (g : nat)
| GameUpdate (g : nat).

(** The engine together with the log of observable events. *)
Record World := mkWorld {
  eng : Engine;
  log : list Event
}.

(** [void SetGame(Game *game) { m_game.reset(game); }].
    [std::unique_ptr::reset(p)] stores [p] and then deletes the previously
    owned object (if any): the destruction completes inside the call. *)
Definition SetGame (game : option nat) (w : World) : World :=
  let old := m_game (eng w) in
  mkWorld (EngineOps.with_game game (eng w))
          (log w ++ match old with Some o => [GameDestroyed o] | None => [] end).

(** Seconds of a [Time] (microseconds), as handed to [ChangePerSecond::Update]. *)
Definition seconds (t : Z) : Q := inject_Z t / inject_Z 1000000.

(** Modelled from the spec: one iteration of the body of [Engine::Run]
    (Engine.cpp is missing), section 4.2: while the running flag is set,
    sample the update delta and the UPS counter at the offset-adjusted
    time, invoke the game's update hook, then sample the render delta and
    the FPS counter. Nothing happens once the flag is cleared. *)
Definition Iterate (now : Z) (w : World) : World :=
  let e := eng w in
  if m_running e then
    let t := now + m_timeOffset e in
    let e' := mkEngine (m_modules e) (m_game e) (m_argv0 e) (m_timeOffset e)
                (m_fpsLimit e) (m_running e)
                (Delta_Update t (m_deltaUpdate e)) (Delta_Update t (m_deltaRender e))
                (m_timerUpdate e) (m_timerRender e)
                (ChangePerSecond.Update (seconds t) (m_ups e))
                (ChangePerSecond.Update (seconds t) (m_fps e)) in
    mkWorld e' (log w ++ match m_game e with Some g => [GameUpdate g] | None => [] end)
  else w.

(** The public operations of [Engine] that change its state, and one
    loop iteration. *)
Inductive Op :=
| OpAddModule (ty : string) (stage : Stage) (inst : nat)
| OpRemoveModule (ty : string)
| OpSetGame (game : option nat)
| OpSetTimeOffset (timeOffset : Z)
| OpSetFpsLimit (fpsLimit : Q)
| OpRequestClose (error : bool)
| OpIterate (now : Z).

Definition on_engine (f : Engine -> Engine) (w : World) : World :=
  mkWorld (f (eng w)) (log w).

Definition step (w : World) (op : Op) : World :=
  match op with
  | OpAddModule ty st i => on_engine (EngineOps.AddModule ty st i) w
  | OpRemoveModule ty => on_engine (EngineOps.RemoveModule ty) w
  | OpSetGame g => SetGame g w
  | OpSetTimeOffset t => on_engine (EngineOps.SetTimeOffset t) w
  | OpSetFpsLimit f => on_engine (EngineOps.SetFpsLimit f) w
  | OpRequestClose b => on_engine (EngineOps.RequestClose b) w
  | OpIterate now => Iterate now w
  end.

(** A run: the operations performed on the engine, in order. *)
Definition run (ops : list Op) (w : World) : World := fold_left step ops w.

(** Modelled from the spec: the frame-rate governor of [Engine::Run]
    (Engine.cpp is missing), section 4.2 step 4: with a cap [> 0] and an
    inter-render interval shorter than [1/cap] seconds, block for the
    remaining time; otherwise do not block. The result is the time (in
    seconds) the iteration suspends for. *)
Definition fps_wait (fpsLimit : Q) (sinceRender : Q) : Q :=
  if Qle_bool fpsLimit 0 then 0%Q
  else if Qle_bool (/ fpsLimit) sinceRender then 0%Q
  else (/ fpsLimit - sinceRender)%Q.

End Loop.

(* ------------------------------------------------------------------ *)
(** * Callers in Tests/EditorTest/MainGame.cpp *)

Module MainGame.

Import Loop.

(** [enum cr_op] of cr.h, the hot-reload host. *)
Inductive cr_op := CR_LOAD | CR_STEP | CR_UNLOAD | CR_CLOSE.

(** [CR_EXPORT int cr_main(struct cr_plugin *ctx, enum cr_op operation)]:
    on [CR_LOAD] [Engine::Get()->SetGame(new test::MainGame())], on
    [CR_UNLOAD] [Engine::Get()->SetGame(nullptr)], and [return 0] in every
    case. [fresh] is the address of the [MainGame] that [new] allocates;
    the [Log::Out] lines are not modelled. *)
Definition cr_main (fresh : nat) (operation : cr_op) (w : World) : World * Z :=
  match operation with
  | CR_LOAD => (SetGame (Some fresh) w, 0)
  | CR_UNLOAD => (SetGame None w, 0)
  | _ => (w, 0)
  end.



End MainGame.

(* ------------------------------------------------------------------ *)
(** * Observations of a run *)

Module Observe.

Import Loop.

(** The value of the last [SetFpsLimit] among [ops], or [cur] if none. *)
Fixpoint last_fps_limit (ops : list Op) (cur : Q) : Q :=
  match ops with
  | [] => cur
  | OpSetFpsLimit f :: ops' => last_fps_limit ops' f
  | _ :: ops' => last_fps_limit ops' cur
  end.

(** The value of the last [SetTimeOffset] among [ops], or [cur] if none. *)
Fixpoint last_time_offset (ops : list Op) (cur : Z) : Z :=
  match ops with
  | [] => cur
  | OpSetTimeOffset t :: ops' => last_time_offset ops' t
  | _ :: ops' => last_time_offset ops' cur
  end.

(** The argument of the last [SetGame] among [ops], or [cur] if none. *)
Fixpoint last_game (ops : list Op) (cur : option nat) : option nat :=
  match ops with
  | [] => cur
  | OpSetGame g :: ops' => last_game ops' g
  | _ :: ops' => last_game ops' cur
  end.



End Observe.


(* ------------------------------------------------------------------ *)
(** * Sample states *)

Definition zero_delta : Delta := mkDelta 0 0 0.
Definition zero_timer : Timer := mkTimer 0 0.
Definition empty_modules : ModuleHolder := mkModuleHolder ∅ [].

(** An engine just constructed, running, with game 1 and no fps limit. *)
Definition sample_engine : Engine :=
  mkEngine empty_modules (Some 1%nat) "acid" 0 (-1)%Q true
    zero_delta zero_delta zero_timer zero_timer
    ChangePerSecond.zero ChangePerSecond.zero.

Definition sample_world : Loop.World := Loop.mkWorld sample_engine [].

(** A registry holding the module type "Audio" in the [Always] stage. *)
Definition audio_modules : ModuleHolder :=
  mkModuleHolder {[ "Audio" := (Always, 7%nat) ]} [(Always, "Audio")].

(* ------------------------------------------------------------------ *)
(** * Properties *)

Section CounterFacts.

(** One [Update] on the counter, by cases on the floor comparison. *)
Lemma Update_cases (time : Q) (c : ChangePerSecond.t) :
  (Qfloor (ChangePerSecond.m_valueTime c) < Qfloor time /\
   ChangePerSecond.Update time c =
     ChangePerSecond.mk 0 (u32_incr (ChangePerSecond.m_valueTemp c)) time) \/
  (Qfloor time <= Qfloor (ChangePerSecond.m_valueTime c) /\
   ChangePerSecond.Update time c =
     ChangePerSecond.mk (u32_incr (ChangePerSecond.m_valueTemp c))
                        (ChangePerSecond.m_value c) time).
Proof.
  unfold ChangePerSecond.Update.
  destruct (Z.ltb_spec (Qfloor (ChangePerSecond.m_valueTime c)) (Qfloor time)).
  - left; auto.
  - right; auto.
Qed.

End CounterFacts.

(** C2 (as stated, refuted): fed 0.1, 0.9, 1.2, 1.8, 2.05 from a zeroed
    counter, the published value right after the 1.2 sample is 3, not 2:
    the tally is incremented before the boundary check, so the crossing
    sample itself is counted. *)
Lemma C2_rate_counter_example_counterexample :
  ~ (ChangePerSecond.m_value
       (ChangePerSecond.feed [1#10; 9#10; 12#10]%Q ChangePerSecond.zero) = 2 /\
     ChangePerSecond.m_value
       (ChangePerSecond.feed [1#10; 9#10; 12#10; 18#10; 205#100]%Q
          ChangePerSecond.zero) = 2).
Proof. vm_compute. intros [H _]. discriminate H. Qed.

(** C2 (amended): fed 0.1, 0.9, 1.2, 1.8, 2.05 from a zeroed counter, the
    counter publishes 3 at the 1.2 sample and 2 at the 2.05 sample, and
    the tally is 0 right after each publish. *)
Theorem C2_rate_counter_example_amended :
  let c3 := ChangePerSecond.feed [1#10; 9#10; 12#10]%Q ChangePerSecond.zero in
  let c5 := ChangePerSecond.feed [1#10; 9#10; 12#10; 18#10; 205#100]%Q
              ChangePerSecond.zero in
  ChangePerSecond.m_value c3 = 3 /\ ChangePerSecond.m_valueTemp c3 = 0 /\
  ChangePerSecond.m_value c5 = 2 /\ ChangePerSecond.m_valueTemp c5 = 0.
Proof. vm_compute. repeat split. Qed.

(** C3: every [Update(time)] increments the ([uint32_t]) tally; exactly
    when [floor(time) > floor(m_valueTime)] the incremented tally is
    published and the tally reset to 0, otherwise the published value is
    kept and the tally holds the increment; in every case the stored
    timestamp becomes [time]. *)
Theorem C3_update_spec (time : Q) (c : ChangePerSecond.t) :
  let c' := ChangePerSecond.Update time c in
  (Qfloor (ChangePerSecond.m_valueTime c) < Qfloor time ->
     ChangePerSecond.m_value c' = u32_incr (ChangePerSecond.m_valueTemp c) /\
     ChangePerSecond.m_valueTemp c' = 0) /\
  (Qfloor time <= Qfloor (ChangePerSecond.m_valueTime c) ->
     ChangePerSecond.m_value c' = ChangePerSecond.m_value c /\
     ChangePerSecond.m_valueTemp c' = u32_incr (ChangePerSecond.m_valueTemp c)) /\
  ChangePerSecond.m_valueTime c' = time.
Proof.
  cbv zeta.
  destruct (Update_cases time c) as [[Hlt ->] | [Hle ->]]; simpl;
    repeat split; intros; lia.
Qed.

(** C10: an [Update] whose time has the same or a smaller integer second
    than the stored timestamp leaves the published value unchanged. *)
Theorem C10_no_publish_within_second (time : Q) (c : ChangePerSecond.t) :
  Qfloor time <= Qfloor (ChangePerSecond.m_valueTime c) ->
  ChangePerSecond.m_value (ChangePerSecond.Update time c) =
  ChangePerSecond.m_value c.
Proof.
  intros Hle.
  destruct (Update_cases time c) as [[Hlt _] | [_ ->]]; [lia | reflexivity].
Qed.

Lemma C10_no_publish_within_second_witness :
  (Qfloor (18#10) <= Qfloor (ChangePerSecond.m_valueTime
                               (ChangePerSecond.mk 0 3 (12#10))))%Z /\
  ChangePerSecond.m_value
    (ChangePerSecond.Update (18#10) (ChangePerSecond.mk 0 3 (12#10))) = 3.
Proof.
  split.
  - vm_compute. discriminate.
  - apply (C10_no_publish_within_second (18#10) (ChangePerSecond.mk 0 3 (12#10))).
    vm_compute. discriminate.
Defined.

Section EngineFacts.

Import EngineOps Loop.

Lemma run_app (ops1 ops2 : list Op) (w : World) :
  run (ops1 ++ ops2) w = run ops2 (run ops1 w).
Proof. unfold run. apply fold_left_app. Qed.

Lemma run_cons (op : Op) (ops : list Op) (w : World) :
  run (op :: ops) w = run ops (step w op).
Proof. reflexivity. Qed.

(** The event log only grows. *)
Lemma run_log_extends (ops : list Op) (w : World) :
  exists L, log (run ops w) = log w ++ L.
Proof.
  revert w; induction ops as [|op ops IH]; intros w.
  - exists []. simpl. by rewrite app_nil_r.
  - rewrite run_cons. destruct (IH (step w op)) as [L HL]. rewrite HL.
    destruct op; simpl;
      try (exists L; reflexivity);
      unfold SetGame, Iterate; simpl.
    + eexists. rewrite <- app_assoc. reflexivity.
    + destruct (m_running (eng w)); simpl;
        [eexists; rewrite <- app_assoc; reflexivity | exists L; reflexivity].
Qed.

(** No operation sets a cleared running flag. *)
Lemma step_keeps_stopped (w : World) (op : Op) :
  m_running (eng w) = false -> m_running (eng (step w op)) = false.
Proof.
  intros H. destruct op; unfold step;
    try (unfold Iterate; rewrite H; exact H); cbn; first [exact H | reflexivity].
Qed.

Lemma run_keeps_stopped (ops : list Op) (w : World) :
  m_running (eng w) = false -> m_running (eng (run ops w)) = false.
Proof.
  revert w; induction ops as [|op ops IH]; intros w H; [exact H|].
  rewrite run_cons. apply IH, step_keeps_stopped, H.
Qed.

End EngineFacts.

(** C1 (code_bug evidence): [RequestClose] ignores its [error] argument,
    so a run in which [RequestClose(true)] is called ends in exactly the
    same engine state and event log as the same run with
    [RequestClose(false)]; any exit status [Run] computes from the engine
    is therefore the same for both. *)
Theorem C1_request_close_error_flag_lost (pre post : list Loop.Op) (w : Loop.World)
    (exit_status : Engine -> Z) :
  Loop.run (pre ++ Loop.OpRequestClose true :: post) w =
  Loop.run (pre ++ Loop.OpRequestClose false :: post) w /\
  exit_status (Loop.eng (Loop.run (pre ++ Loop.OpRequestClose true :: post) w)) =
  exit_status (Loop.eng (Loop.run (pre ++ Loop.OpRequestClose false :: post) w)).
Proof.
  assert (Heq : Loop.run (pre ++ Loop.OpRequestClose true :: post) w =
                Loop.run (pre ++ Loop.OpRequestClose false :: post) w).
  { rewrite !run_app, !run_cons. reflexivity. }
  split; [exact Heq | now rewrite Heq].
Qed.

(** C4: [RequestClose] is idempotent: a second call (with any flags)
    leaves the state of a single call; on a stopped engine a call changes
    nothing; and in a run, a repeated call gives the same final state and
    log, hence the same eventual return value. *)
Theorem C4_request_close_idempotent (e : Engine) (b1 b2 : bool) :
  EngineOps.RequestClose b2 (EngineOps.RequestClose b1 e) =
    EngineOps.RequestClose b1 e /\
  (m_running e = false -> EngineOps.RequestClose b2 e = e) /\
  (forall (pre post : list Loop.Op) (w : Loop.World) (exit_status : Engine -> Z),
     Loop.run (pre ++ Loop.OpRequestClose b1 :: Loop.OpRequestClose b2 :: post) w =
     Loop.run (pre ++ Loop.OpRequestClose b1 :: post) w /\
     exit_status (Loop.eng (Loop.run (pre ++ Loop.OpRequestClose b1 ::
                                      Loop.OpRequestClose b2 :: post) w)) =
     exit_status (Loop.eng (Loop.run (pre ++ Loop.OpRequestClose b1 :: post) w))).
Proof.
  split; [reflexivity|]. split.
  - destruct e; simpl; intros ->; reflexivity.
  - intros pre post w exit_status.
    assert (Heq : Loop.run (pre ++ Loop.OpRequestClose b1 :: Loop.OpRequestClose b2 :: post) w =
                  Loop.run (pre ++ Loop.OpRequestClose b1 :: post) w).
    { rewrite !run_app, !run_cons. reflexivity. }
    split; [exact Heq | now rewrite Heq].
Qed.

(** C5: once [IsRunning()] observes [false], it observes [false] after
    any further sequence of public operations and loop iterations. *)
Theorem C5_running_never_reset (pre post : list Loop.Op) (w : Loop.World) :
  EngineOps.IsRunning (Loop.eng (Loop.run pre w)) = false ->
  EngineOps.IsRunning (Loop.eng (Loop.run (pre ++ post) w)) = false.
Proof.
  unfold EngineOps.IsRunning. intros H. rewrite run_app.
  apply run_keeps_stopped, H.
Qed.

Lemma C5_running_never_reset_witness :
  EngineOps.IsRunning (Loop.eng (Loop.run [Loop.OpRequestClose false] sample_world))
    = false /\
  EngineOps.IsRunning
    (Loop.eng (Loop.run ([Loop.OpRequestClose false] ++
                         [Loop.OpSetGame (Some 2%nat); Loop.OpIterate 1000000;
                          Loop.OpSetFpsLimit 60; Loop.OpRequestClose true])
                        sample_world)) = false.
Proof.
  split; [reflexivity|].
  apply C5_running_never_reset. reflexivity.
Defined.

(** C6: when the game [o] is replaced by a different game [g] whose
    update hook has not run yet, the log of the whole run has the
    destruction of [o] strictly before every update of [g]: [o] is
    destroyed inside [SetGame] itself, and [g] is the current game from
    then on. *)
Theorem C6_old_game_destroyed_before_new_update
    (pre post : list Loop.Op) (w : Loop.World) (o g : nat) :
  m_game (Loop.eng (Loop.run pre w)) = Some o ->
  o <> g ->
  ~ In (Loop.GameUpdate g) (Loop.log (Loop.run pre w)) ->
  m_game (Loop.eng (Loop.run (pre ++ [Loop.OpSetGame (Some g)]) w)) = Some g /\
  exists L1 L2,
    Loop.log (Loop.run (pre ++ Loop.OpSetGame (Some g) :: post) w) =
      L1 ++ Loop.GameDestroyed o :: L2 /\
    ~ In (Loop.GameUpdate g) L1.
Proof.
  intros Hold _ Hnot.
  rewrite !run_app. split; [reflexivity|].
  rewrite run_cons.
  destruct (run_log_extends post (Loop.step (Loop.run pre w) (Loop.OpSetGame (Some g))))
    as [L HL].
  exists (Loop.log (Loop.run pre w)), L. split; [|exact Hnot].
  rewrite HL. simpl. unfold Loop.SetGame. simpl. rewrite Hold.
  rewrite <- app_assoc. reflexivity.
Qed.

Lemma C6_old_game_destroyed_before_new_update_witness :
  m_game (Loop.eng (Loop.run [] sample_world)) = Some 1%nat /\
  (1 <> 2)%nat /\
  ~ In (Loop.GameUpdate 2) (Loop.log (Loop.run [] sample_world)) /\
  m_game (Loop.eng (Loop.run ([] ++ [Loop.OpSetGame (Some 2%nat)]) sample_world))
    = Some 2%nat /\
  exists L1 L2,
    Loop.log (Loop.run ([] ++ Loop.OpSetGame (Some 2%nat) :: [Loop.OpIterate 0])
                       sample_world) =
      L1 ++ Loop.GameDestroyed 1 :: L2 /\
    ~ In (Loop.GameUpdate 2) L1.
Proof.
  assert (Hold : m_game (Loop.eng (Loop.run [] sample_world)) = Some 1%nat)
    by reflexivity.
  assert (Hne : (1 <> 2)%nat) by lia.
  assert (Hnot : ~ In (Loop.GameUpdate 2) (Loop.log (Loop.run [] sample_world)))
    by (simpl; tauto).
  split; [exact Hold|]. split; [exact Hne|]. split; [exact Hnot|].
  exact (C6_old_game_destroyed_before_new_update [] [Loop.OpIterate 0]
           sample_world 1 2 Hold Hne Hnot).
Defined.

(** C7: adding a module whose type identity is registered leaves the
    registry (map and stage index) unchanged and reports [Conflict] to the
    caller of [ModuleHolder::Add]; [Engine::AddModule] then leaves the
    whole engine unchanged. *)
Theorem C7_add_duplicate_rejected
    (mh : ModuleHolder) (ty : string) (stage : Stage) (inst : nat) :
  is_Some (mh_modules mh !! ty) ->
  ModuleHolderOps.Add ty stage inst mh = (mh, Conflict) /\
  (forall e : Engine, m_modules e = mh -> EngineOps.AddModule ty stage inst e = e).
Proof.
  intros [x Hx]. unfold ModuleHolderOps.Add. rewrite Hx. split; [reflexivity|].
  intros e He. unfold EngineOps.AddModule. rewrite He. unfold ModuleHolderOps.Add.
  rewrite Hx. simpl. unfold EngineOps.with_modules. rewrite <- He.
  destruct e; reflexivity.
Qed.

Lemma C7_add_duplicate_rejected_witness :
  is_Some (mh_modules audio_modules !! "Audio") /\
  ModuleHolderOps.Add "Audio" Render 9 audio_modules = (audio_modules, Conflict).
Proof.
  assert (H : is_Some (mh_modules audio_modules !! "Audio")) by (eexists; reflexivity).
  split; [exact H|].
  exact (proj1 (C7_add_duplicate_rejected audio_modules "Audio" Render 9 H)).
Defined.

(** C8: with a frame-rate cap of 0 or below (set through [SetFpsLimit]
    and read back by the loop) the governor never blocks; with a positive
    cap it blocks exactly when the inter-render interval is shorter than
    [1/cap], and then for the time that completes [1/cap]. *)
Theorem C8_fps_cap_throttling (e : Engine) (cap sinceRender : Q) :
  let lim := EngineOps.GetFpsLimit (EngineOps.SetFpsLimit cap e) in
  ((cap <= 0)%Q -> Loop.fps_wait lim sinceRender = 0%Q) /\
  ((0 < cap)%Q ->
     ((sinceRender < / cap)%Q ->
        (0 < Loop.fps_wait lim sinceRender)%Q /\
        (sinceRender + Loop.fps_wait lim sinceRender == / cap)%Q) /\
     ((/ cap <= sinceRender)%Q -> Loop.fps_wait lim sinceRender = 0%Q)).
Proof.
  cbv zeta. unfold EngineOps.GetFpsLimit, EngineOps.SetFpsLimit. simpl.
  unfold Loop.fps_wait. split.
  - intros Hle. apply Qle_bool_iff in Hle. now rewrite Hle.
  - intros Hpos.
    assert (Hnle : Qle_bool cap 0 = false).
    { destruct (Qle_bool cap 0) eqn:E; [|reflexivity].
      apply Qle_bool_iff in E. exfalso. apply (Qlt_not_le _ _ Hpos E). }
    rewrite Hnle. split.
    + intros Hlt.
      assert (Hn2 : Qle_bool (/ cap) sinceRender = false).
      { destruct (Qle_bool (/ cap) sinceRender) eqn:E; [|reflexivity].
        apply Qle_bool_iff in E. exfalso. apply (Qlt_not_le _ _ Hlt E). }
      rewrite Hn2. split.
      * apply Qlt_minus_iff in Hlt. exact Hlt.
      * ring.
    + intros Hge. apply Qle_bool_iff in Hge. now rewrite Hge.
Qed.

(** C9: [RequestClose(error)] clears the running flag, leaves every other
    member of the engine as it was, and does the same for both values of
    [error]. *)
Theorem C9_request_close_frame (e : Engine) (error : bool) :
  EngineOps.RequestClose error e =
    mkEngine (m_modules e) (m_game e) (m_argv0 e) (m_timeOffset e)
      (m_fpsLimit e) false (m_deltaUpdate e) (m_deltaRender e)
      (m_timerUpdate e) (m_timerRender e) (m_ups e) (m_fps e) /\
  EngineOps.RequestClose true e = EngineOps.RequestClose false e.
Proof. split; reflexivity. Qed.

(* ------------------------------------------------------------------ *)
(** * Further properties of the counter *)

Section CounterRuns.

Lemma feed_cons (tm : Q) (times : list Q) (c : ChangePerSecond.t) :
  ChangePerSecond.feed (tm :: times) c =
  ChangePerSecond.feed times (ChangePerSecond.Update tm c).
Proof. reflexivity. Qed.

Lemma feed_app (t1 t2 : list Q) (c : ChangePerSecond.t) :
  ChangePerSecond.feed (t1 ++ t2) c =
  ChangePerSecond.feed t2 (ChangePerSecond.feed t1 c).
Proof. unfold ChangePerSecond.feed. apply fold_left_app. Qed.

Lemma u32_incr_range (x : Z) : 0 <= u32_incr x < u32_modulus.
Proof. unfold u32_incr, u32_modulus. apply Z.mod_pos_bound. lia. Qed.

(** Updates inside the stored integer second only count, modulo 2^32. *)
Lemma feed_same_second_gen (times : list Q) (c : ChangePerSecond.t) (k : Z) :
  0 <= ChangePerSecond.m_valueTemp c < u32_modulus ->
  Forall (fun tm => Qfloor tm = k) times ->
  Qfloor (ChangePerSecond.m_valueTime c) = k ->
  ChangePerSecond.m_value (ChangePerSecond.feed times c) = ChangePerSecond.m_value c /\
  ChangePerSecond.m_valueTemp (ChangePerSecond.feed times c) =
    (ChangePerSecond.m_valueTemp c + Z.of_nat (length times)) mod u32_modulus /\
  Qfloor (ChangePerSecond.m_valueTime (ChangePerSecond.feed times c)) = k.
Proof.
  revert c. induction times as [|tm times IH]; intros c Hr Hall Hk.
  - simpl. rewrite Z.add_0_r, Z.mod_small by exact Hr. auto.
  - rewrite Forall_cons in Hall. destruct Hall as [Htm Hrest].
    rewrite feed_cons.
    destruct (Update_cases tm c) as [[Hlt _] | [_ Heq]]; [lia|].
    rewrite Heq.
    destruct (IH (ChangePerSecond.mk (u32_incr (ChangePerSecond.m_valueTemp c))
                    (ChangePerSecond.m_value c) tm) (u32_incr_range _) Hrest Htm)
      as (Hv & Ht & Hf).
    simpl in Hv, Ht, Hf. split; [exact Hv|]. split; [|exact Hf].
    rewrite Ht. unfold u32_incr. rewrite Z.add_mod_idemp_l by (unfold u32_modulus; lia).
    f_equal. simpl length. lia.
Qed.


End CounterRuns.



(** X2: a run of updates whose times all lie in the integer second of the
    stored timestamp publishes nothing: the published value is unchanged
    and the tally grows by the number of updates (modulo 2^32). *)
Theorem X2_same_second_only_counts (times : list Q) (c : ChangePerSecond.t) :
  0 <= ChangePerSecond.m_valueTemp c < u32_modulus ->
  Forall (fun tm => Qfloor tm = Qfloor (ChangePerSecond.m_valueTime c)) times ->
  ChangePerSecond.m_value (ChangePerSecond.feed times c) = ChangePerSecond.m_value c /\
  ChangePerSecond.m_valueTemp (ChangePerSecond.feed times c) =
    (ChangePerSecond.m_valueTemp c + Z.of_nat (length times)) mod u32_modulus.
Proof.
  intros Hr Hall.
  destruct (feed_same_second_gen times c _ Hr Hall eq_refl) as (Hv & Ht & _).
  auto.
Qed.

Lemma X2_same_second_only_counts_witness :
  let c := ChangePerSecond.mk 4 9 (11#10)%Q in
  (0 <= ChangePerSecond.m_valueTemp c < u32_modulus) /\
  Forall (fun tm => Qfloor tm = Qfloor (ChangePerSecond.m_valueTime c))
    [12#10; 15#10; 19#10]%Q /\
  ChangePerSecond.m_value (ChangePerSecond.feed [12#10; 15#10; 19#10]%Q c) = 9 /\
  ChangePerSecond.m_valueTemp (ChangePerSecond.feed [12#10; 15#10; 19#10]%Q c) = 7.
Proof.
  cbv zeta.
  assert (Hr : 0 <= ChangePerSecond.m_valueTemp (ChangePerSecond.mk 4 9 (11#10)%Q)
               < u32_modulus) by (unfold u32_modulus; simpl; lia).
  assert (Hall : Forall (fun tm => Qfloor tm =
                   Qfloor (ChangePerSecond.m_valueTime (ChangePerSecond.mk 4 9 (11#10)%Q)))
                   [12#10; 15#10; 19#10]%Q) by (repeat constructor).
  destruct (X2_same_second_only_counts _ _ Hr Hall) as [Hv Ht].
  split; [exact Hr|]. split; [exact Hall|]. split; [exact Hv|].
  rewrite Ht. reflexivity.
Defined.

(** X3: after a publish (tally 0), [n] further updates inside the stored
    integer second followed by one update in a later second publish
    [n + 1] (modulo 2^32), counting the crossing update itself, and reset
    the tally to 0. *)
Theorem X3_publish_counts_updates (times : list Q) (tm : Q) (c : ChangePerSecond.t) :
  ChangePerSecond.m_valueTemp c = 0 ->
  Forall (fun t => Qfloor t = Qfloor (ChangePerSecond.m_valueTime c)) times ->
  Qfloor (ChangePerSecond.m_valueTime c) < Qfloor tm ->
  ChangePerSecond.m_value (ChangePerSecond.feed (times ++ [tm]) c) =
    (Z.of_nat (length times) + 1) mod u32_modulus /\
  ChangePerSecond.m_valueTemp (ChangePerSecond.feed (times ++ [tm]) c) = 0.
Proof.
  intros H0 Hall Hlt.
  assert (Hr : 0 <= ChangePerSecond.m_valueTemp c < u32_modulus)
    by (rewrite H0; unfold u32_modulus; lia).
  destruct (feed_same_second_gen times c _ Hr Hall eq_refl) as (_ & Ht & Hf).
  rewrite feed_app. simpl.
  destruct (Update_cases tm (ChangePerSecond.feed times c)) as [[_ ->] | [Hle _]];
    [| lia].
  simpl. split; [|reflexivity].
  rewrite Ht, H0. unfold u32_incr.
  rewrite Z.add_mod_idemp_l by (unfold u32_modulus; lia).
  reflexivity.
Qed.

Lemma X3_publish_counts_updates_witness :
  let c := ChangePerSecond.mk 0 5 (3#1)%Q in
  ChangePerSecond.m_valueTemp c = 0 /\
  Forall (fun t => Qfloor t = Qfloor (ChangePerSecond.m_valueTime c))
    [31#10; 32#10; 37#10]%Q /\
  Qfloor (ChangePerSecond.m_valueTime c) < Qfloor (41#10)%Q /\
  ChangePerSecond.m_value (ChangePerSecond.feed ([31#10; 32#10; 37#10] ++ [41#10])%Q c) = 4.
Proof.
  cbv zeta.
  assert (H0 : ChangePerSecond.m_valueTemp (ChangePerSecond.mk 0 5 (3#1)%Q) = 0)
    by reflexivity.
  assert (Hall : Forall (fun t => Qfloor t =
                   Qfloor (ChangePerSecond.m_valueTime (ChangePerSecond.mk 0 5 (3#1)%Q)))
                   [31#10; 32#10; 37#10]%Q) by (repeat constructor).
  assert (Hlt : Qfloor (ChangePerSecond.m_valueTime (ChangePerSecond.mk 0 5 (3#1)%Q))
                < Qfloor (41#10)%Q) by (vm_compute; reflexivity).
  destruct (X3_publish_counts_updates _ _ _ H0 Hall Hlt) as [Hv _].
  split; [exact H0|]. split; [exact Hall|]. split; [exact Hlt|].
  rewrite Hv. reflexivity.
Defined.

(** X4: the boundary test compares with the previous update only: after an
    update whose time steps back to an earlier integer second, an update
    back in the stored second (one already counted) publishes again, the
    tally of both updates. *)
Theorem X4_backwards_step_republishes (t1 t2 : Q) (c : ChangePerSecond.t) :
  Qfloor t1 < Qfloor (ChangePerSecond.m_valueTime c) ->
  Qfloor t2 = Qfloor (ChangePerSecond.m_valueTime c) ->
  ChangePerSecond.m_value (ChangePerSecond.Update t2 (ChangePerSecond.Update t1 c)) =
    u32_incr (u32_incr (ChangePerSecond.m_valueTemp c)) /\
  ChangePerSecond.m_valueTemp
    (ChangePerSecond.Update t2 (ChangePerSecond.Update t1 c)) = 0.
Proof.
  intros H1 H2.
  destruct (Update_cases t1 c) as [[Hlt _] | [_ ->]]; [lia|].
  destruct (Update_cases t2 (ChangePerSecond.mk (u32_incr (ChangePerSecond.m_valueTemp c))
                              (ChangePerSecond.m_value c) t1))
    as [[_ ->] | [Hle _]]; simpl in *; [auto | lia].
Qed.

Lemma X4_backwards_step_republishes_witness :
  let c := ChangePerSecond.mk 2 60 (52#10)%Q in
  Qfloor (48#10)%Q < Qfloor (ChangePerSecond.m_valueTime c) /\
  Qfloor (53#10)%Q = Qfloor (ChangePerSecond.m_valueTime c) /\
  ChangePerSecond.m_value
    (ChangePerSecond.Update (53#10)%Q (ChangePerSecond.Update (48#10)%Q c)) = 4.
Proof.
  cbv zeta.
  assert (H1 : Qfloor (48#10)%Q <
               Qfloor (ChangePerSecond.m_valueTime (ChangePerSecond.mk 2 60 (52#10)%Q)))
    by (vm_compute; reflexivity).
  assert (H2 : Qfloor (53#10)%Q =
               Qfloor (ChangePerSecond.m_valueTime (ChangePerSecond.mk 2 60 (52#10)%Q)))
    by reflexivity.
  destruct (X4_backwards_step_republishes _ _ _ H1 H2) as [Hv _].
  split; [exact H1|]. split; [exact H2|]. rewrite Hv. reflexivity.
Defined.

(* ------------------------------------------------------------------ *)
(** * Further properties of engine runs *)

Section EngineRuns.

Import EngineOps Loop Observe.

Ltac unfold_step w :=
  unfold step, on_engine, SetGame, Iterate; cbn;
  try (destruct (m_running (eng w)); cbn).

Lemma step_argv0 (w : World) (op : Op) :
  m_argv0 (eng (step w op)) = m_argv0 (eng w).
Proof. destruct op; unfold_step w; reflexivity. Qed.

Lemma step_fps_limit (w : World) (op : Op) :
  m_fpsLimit (eng (step w op)) =
  match op with OpSetFpsLimit f => f | _ => m_fpsLimit (eng w) end.
Proof. destruct op; unfold_step w; reflexivity. Qed.

Lemma step_time_offset (w : World) (op : Op) :
  m_timeOffset (eng (step w op)) =
  match op with OpSetTimeOffset t => t | _ => m_timeOffset (eng w) end.
Proof. destruct op; unfold_step w; reflexivity. Qed.

Lemma step_game (w : World) (op : Op) :
  m_game (eng (step w op)) =
  match op with OpSetGame g => g | _ => m_game (eng w) end.
Proof. destruct op; unfold_step w; reflexivity. Qed.


End EngineRuns.

(** X5: no public operation and no loop iteration changes the [argv0]
    string given at construction: [GetArgv0()] is constant over any run. *)
Theorem X5_argv0_constant (ops : list Loop.Op) (w : Loop.World) :
  m_argv0 (Loop.eng (Loop.run ops w)) = m_argv0 (Loop.eng w).
Proof.
  revert w; induction ops as [|op ops IH]; intros w; [reflexivity|].
  rewrite run_cons, IH. apply step_argv0.
Qed.

(** X6: after any run, [GetFpsLimit()] returns the value of the last
    [SetFpsLimit] of the run, or the initial limit if there was none. *)
Theorem X6_fps_limit_last_write (ops : list Loop.Op) (w : Loop.World) :
  EngineOps.GetFpsLimit (Loop.eng (Loop.run ops w)) =
  Observe.last_fps_limit ops (EngineOps.GetFpsLimit (Loop.eng w)).
Proof.
  unfold EngineOps.GetFpsLimit.
  revert w; induction ops as [|op ops IH]; intros w; [reflexivity|].
  rewrite run_cons, IH, step_fps_limit. destruct op; reflexivity.
Qed.

(** X7: after any run, [GetTimeOffset()] returns the value of the last
    [SetTimeOffset] of the run, or the initial offset if there was none. *)
Theorem X7_time_offset_last_write (ops : list Loop.Op) (w : Loop.World) :
  m_timeOffset (Loop.eng (Loop.run ops w)) =
  Observe.last_time_offset ops (m_timeOffset (Loop.eng w)).
Proof.
  revert w; induction ops as [|op ops IH]; intros w; [reflexivity|].
  rewrite run_cons, IH, step_time_offset. destruct op; reflexivity.
Qed.

(** X8: after any run, [GetGame()] returns the argument of the last
    [SetGame] of the run (possibly [nullptr]), or the initial game. *)
Theorem X8_game_last_set (ops : list Loop.Op) (w : Loop.World) :
  EngineOps.GetGame (Loop.eng (Loop.run ops w)) =
  Observe.last_game ops (EngineOps.GetGame (Loop.eng w)).
Proof.
  unfold EngineOps.GetGame.
  revert w; induction ops as [|op ops IH]; intros w; [reflexivity|].
  rewrite run_cons, IH, step_game. destruct op; reflexivity.
Qed.





(** X11: a hot-reload cycle through [cr_main] ([CR_UNLOAD], then
    [CR_LOAD] of a new [MainGame]) returns 0 both times, leaves the engine
    without a game in between, destroys exactly the old game, and ends with
    the new game installed. *)
Theorem X11_reload_cycle (w : Loop.World) (old fresh : nat) :
  m_game (Loop.eng w) = Some old ->
  let (w1, r1) := MainGame.cr_main fresh MainGame.CR_UNLOAD w in
  let (w2, r2) := MainGame.cr_main fresh MainGame.CR_LOAD w1 in
  r1 = 0 /\ r2 = 0 /\
  EngineOps.GetGame (Loop.eng w1) = None /\
  EngineOps.GetGame (Loop.eng w2) = Some fresh /\
  Loop.log w2 = Loop.log w ++ [Loop.GameDestroyed old].
Proof.
  intros Hold. simpl. unfold Loop.SetGame. simpl. rewrite Hold. simpl.
  rewrite app_nil_r. repeat split.
Qed.

Lemma X11_reload_cycle_witness :
  m_game (Loop.eng sample_world) = Some 1%nat /\
  let (w1, r1) := MainGame.cr_main 5 MainGame.CR_UNLOAD sample_world in
  let (w2, r2) := MainGame.cr_main 5 MainGame.CR_LOAD w1 in
  r1 = 0 /\ r2 = 0 /\
  EngineOps.GetGame (Loop.eng w1) = None /\
  EngineOps.GetGame (Loop.eng w2) = Some 5%nat /\
  Loop.log w2 = Loop.log sample_world ++ [Loop.GameDestroyed 1].
Proof.
  assert (Hg : m_game (Loop.eng sample_world) = Some 1%nat) by reflexivity.
  split; [exact Hg|]. exact (X11_reload_cycle sample_world 1 5 Hg).
Defined.

